(** * Sentiment-analysis microservice: Query Service and Analytics Reader

    A shallow embedding of [src/app/main.py] (the FastAPI Query Service) and
    [src/dashboard/app.py] (the Streamlit dashboard), followed by the
    properties of the two programs.

    Conventions of the embedding.
    - Python code that can raise runs in a state-and-exception monad
      [M S A := S -> result A * S]; [try/except/finally] are combinators.
    - The collaborators that the repository only calls (the Hugging Face
      pipeline, the SQLAlchemy session, the database behind the engine) are
      described by what they answer: a pipeline is a function from the text
      to a result or an exception, a store operation either succeeds or
      raises the exception given by a fault record.
    - A Python [float] that is only stored and passed on is the rational it
      denotes ([Q]).  No floating-point arithmetic is computed: the one
      reduction of the programs, the mean of the dashboard, is kept as the
      term [float64_mean column].  A nullable column is an [option].
    - Instants are integers, in microseconds since the epoch. *)

From Stdlib Require Import ZArith QArith String List Lia.
From stdpp Require Import base option list strings sorting.

Local Open Scope string_scope.
Local Open Scope Z_scope.

(** ** Python values shared by the two programs *)

Module Py.

(** An exception object.  [HTTPException] is FastAPI's, the rest of the
    hierarchy is collapsed into [Exception] with its message. *)
Inductive exn : Type :=
| Exception (msg : string)
| ValueError (msg : string)
| IndexError (msg : string)
| HTTPException (status_code : Z) (detail : string).

Inductive result (A : Type) : Type :=
| Ok (a : A)
| Raise (e : exn).
Arguments Ok {A} a.
Arguments Raise {A} e.

(** A decimal rendering of a status code is needed only for [str] of an
    [HTTPException]; the three codes of the service are enough. *)
Definition status_text (code : Z) : string :=
  if code =? 503 then "503" else if code =? 500 then "500"
  else if code =? 422 then "422" else "???".

(** [str(e)], as interpolated by an f-string. *)
Definition str (e : exn) : string :=
  match e with
  | Exception msg | ValueError msg | IndexError msg => msg
  | HTTPException code detail => status_text code ++ ": " ++ detail
  end.

(** Truthiness of [os.getenv(...)]: [None] and the empty string are falsy. *)
Definition truthy (o : option string) : bool :=
  match o with
  | None => false
  | Some s => negb (String.eqb s "")
  end.

(** Code that reads and writes a state [S] and may raise. *)
Definition M (S A : Type) : Type := S -> result A * S.

Definition ret {S A} (a : A) : M S A := fun s => (Ok a, s).

Definition raise {S A} (e : exn) : M S A := fun s => (Raise e, s).

Definition bind {S A B} (c : M S A) (k : A -> M S B) : M S B :=
  fun s =>
    match c s with
    | (Ok a, s') => k a s'
    | (Raise e, s') => (Raise e, s')
    end.

(** [try: body  except Exception as e: handler e] *)
Definition try_except {S A} (body : M S A) (handler : exn -> M S A) : M S A :=
  fun s =>
    match body s with
    | (Ok a, s') => (Ok a, s')
    | (Raise e, s') => handler e s'
    end.

(** [try: body  finally: fin].  The outcome of [body] is kept unless
    [fin] itself raises. *)
Definition try_finally {S A} (body : M S A) (fin : M S unit) : M S A :=
  fun s =>
    match body s with
    | (r, s') =>
        match fin s' with
        | (Ok _, s'') => (r, s'')
        | (Raise e, s'') => (Raise e, s'')
        end
    end.

Definition modify {S} (f : S -> S) : M S unit := fun s => (Ok tt, f s).

(** [l[0]] *)
Definition getitem0 {S A} (l : list A) : M S A :=
  match l with
  | [] => raise (IndexError "list index out of range")
  | x :: _ => ret x
  end.

End Py.

Import Py.

Declare Scope py_scope.
Delimit Scope py_scope with py.
Notation "x <- c ;; k" := (bind c (fun x => k))
  (at level 100, c at next level, right associativity) : py_scope.
Notation "c ;;; k" := (bind c (fun _ => k))
  (at level 100, right associativity) : py_scope.

(** The persisted entity, one row of [query_logs].  [id] and [timestamp]
    are [None] on an object the store has not flushed yet. *)
Record QueryLog : Type := mkQueryLog {
  id : option Z;
  timestamp : option Z;
  input_text : string;
  model_label : option string;
  model_score : option Q;
}.

(** ** [src/app/main.py]: the Query Service *)

Module Main.

(** One element of the list a text-classification pipeline returns:
    [{'label': ..., 'score': ...}]. *)
Record Candidate : Type := mkCandidate {
  label : string;
  score : Q;
}.

(** The loaded pipeline, called as [sentiment_pipeline(text)]. *)
Definition Pipeline : Type := string -> result (list Candidate).

Record Engine : Type := mkEngine { url : string }.

(** What the process finds when the module is imported. *)
Record Host : Type := mkHost {
  getenv_DATABASE_URL : option string;
  pipeline_load : result Pipeline;
  create_engine : string -> result Engine;
}.

(** The module-level names the endpoint reads. *)
Record Globals : Type := mkGlobals {
  DATABASE_URL : string;
  sentiment_pipeline : option Pipeline;
  engine : Engine;
}.

(** The statements at module level, lines 19-40: the configuration
    check, the guarded model load, the engine. *)
Definition module_init (h : Host) : result Globals :=
  if negb (truthy (getenv_DATABASE_URL h)) then
    Raise (ValueError "DATABASE_URL environment variable not set")
  else
    let DATABASE_URL := default "" (getenv_DATABASE_URL h) in
    let sentiment_pipeline :=
      match pipeline_load h with
      | Ok p => Some p
      | Raise _ => None
      end in
    match create_engine h DATABASE_URL with
    | Raise e => Raise e
    | Ok engine => Ok (mkGlobals DATABASE_URL sentiment_pipeline engine)
    end.

(** Pydantic models. *)
Record QueryRequest : Type := mkQueryRequest { text : string }.

Record QueryResponse : Type := mkQueryResponse {
  response_input_text : string;
  sentiment_label : string;
  sentiment_score : Q;
}.

(** Calls the service makes on its session, in order. *)
Inductive db_call : Type :=
| SessionLocal_call
| add_call
| commit_call
| refresh_call
| rollback_call
| close_call.

(** The Log Store and what one request can observe or change:
    the committed rows, the store's id sequence and clock, the objects
    pending in the request's session ([None]: no session is open), the
    session calls made so far, and the process's standard output. *)
Record World : Type := mkWorld {
  query_logs : list QueryLog;
  next_id : Z;
  clock : Z;
  session_new : option (list QueryLog);
  calls : list db_call;
  stdout : list string;
}.

(** Exceptions the session raises in this request, when it does.
    [rollback] and [close] are taken not to raise. *)
Record Faults : Type := mkFaults {
  add_fault : option exn;
  commit_fault : option exn;
  refresh_fault : option exn;
}.

Definition no_faults : Faults := mkFaults None None None.

Definition called (c : db_call) (w : World) : World :=
  mkWorld (query_logs w) (next_id w) (clock w) (session_new w)
          (calls w ++ [c]) (stdout w).

Definition set_session (s : option (list QueryLog)) (w : World) : World :=
  mkWorld (query_logs w) (next_id w) (clock w) s (calls w) (stdout w).

Definition print (line : string) : M World unit :=
  modify (fun w =>
    mkWorld (query_logs w) (next_id w) (clock w) (session_new w)
            (calls w) (stdout w ++ [line])).

(** The INSERT of a flush: the store gives each pending object the next
    id and, by the column's server default, its clock as timestamp. *)
Fixpoint insert_rows (pending : list QueryLog) (nid now : Z) : list QueryLog :=
  match pending with
  | [] => []
  | o :: rest =>
      mkQueryLog (Some (default nid (id o)))
                 (Some (default now (timestamp o)))
                 (input_text o) (model_label o) (model_score o)
      :: insert_rows rest (nid + 1) now
  end.

Definition flush (w : World) : World :=
  let pending := default [] (session_new w) in
  mkWorld (query_logs w ++ insert_rows pending (next_id w) (clock w))
          (next_id w + Z.of_nat (length pending)) (clock w)
          (Some []) (calls w) (stdout w).

(** A JSON request body. *)
#[local] Unset Elimination Schemes.
Inductive json : Type :=
| JNull
| JBool (b : bool)
| JNumber (q : Q)
| JString (s : string)
| JArray (items : list json)
| JObject (members : list (string * json)).
#[local] Set Elimination Schemes.

(** Member lookup; of a repeated key the last occurrence counts. *)
Fixpoint member (key : string) (members : list (string * json)) : option json :=
  match members with
  | [] => None
  | (k, v) :: rest =>
      match member key rest with
      | Some v' => Some v'
      | None => if String.eqb k key then Some v else None
      end
  end.

(** Validation against [QueryRequest]: an object with a string [text]. *)
Definition validate (body : json) : option QueryRequest :=
  match body with
  | JObject members =>
      match member "text" members with
      | Some (JString s) => Some (mkQueryRequest s)
      | _ => None
      end
  | _ => None
  end.

Inductive http_response : Type :=
| Success (body : QueryResponse)
| Failure (status_code : Z) (detail : string).

Section Endpoint.

(** The module global and the behaviour of the store in this request. *)
Variable sentiment_pipeline : option Pipeline.
Variable faults : Faults.

Definition fail_with (f : option exn) : M World unit :=
  match f with
  | Some e => raise e
  | None => ret tt
  end.

(** [db = SessionLocal()] *)
Definition SessionLocal : M World unit :=
  modify (fun w => set_session (Some []) (called SessionLocal_call w)).

(** [db.add(new_log)] *)
Definition db_add (new_log : QueryLog) : M World unit :=
  (modify (called add_call) ;;;
   fail_with (add_fault faults) ;;;
   modify (fun w =>
     set_session (Some (default [] (session_new w) ++ [new_log])%list) w))%py.

(** [db.commit()]: all pending objects become rows, or none does. *)
Definition db_commit : M World unit :=
  (modify (called commit_call) ;;;
   fail_with (commit_fault faults) ;;;
   modify flush)%py.

(** [db.refresh(new_log)]: reads the row back. *)
Definition db_refresh (new_log : QueryLog) : M World unit :=
  (modify (called refresh_call) ;;;
   fail_with (refresh_fault faults))%py.

(** [db.rollback()]: drops what the session has not committed. *)
Definition db_rollback : M World unit :=
  modify (fun w => set_session (Some []) (called rollback_call w)).

(** [db.close()] *)
Definition db_close : M World unit :=
  modify (fun w => set_session None (called close_call w)).

(** The endpoint, lines 115-160. *)
Definition query_model (request : QueryRequest) : M World QueryResponse :=
  match sentiment_pipeline with
  | None =>
      raise (HTTPException 503 "Model is not available. Check server logs.")
  | Some pipeline =>
      (SessionLocal ;;;
       try_finally
         (try_except
            (model_result <- (fun w => (pipeline (text request), w)) ;;
             first <- getitem0 model_result ;;
             let sentiment_label := label first in
             let sentiment_score := score first in
             let new_log :=
               mkQueryLog None None (text request)
                          (Some sentiment_label) (Some sentiment_score) in
             db_add new_log ;;;
             db_commit ;;;
             db_refresh new_log ;;;
             ret (mkQueryResponse (text request)
                                  sentiment_label sentiment_score))
            (fun e =>
               db_rollback ;;;
               print ("Error during query: " ++ str e) ;;;
               raise (HTTPException 500
                        ("An internal server error occurred: " ++ str e))))
         db_close)%py
  end.

(** [POST /query] as the framework serves it: a body that fails
    validation is answered 422 without calling the endpoint, an
    [HTTPException] becomes its status, any other exception a 500. *)
Definition post_query (body : json) (w : World) : http_response * World :=
  match validate body with
  | None => (Failure 422 "Unprocessable Entity", w)
  | Some request =>
      match query_model request w with
      | (Ok r, w') => (Success r, w')
      | (Raise (HTTPException code detail), w') => (Failure code detail, w')
      | (Raise _, w') => (Failure 500 "Internal Server Error", w')
      end
  end.

End Endpoint.

(** [get_db], lines 97-106: the generator hands its session to the code
    that depends on it ([use]) and closes it in its [finally]. *)
Definition get_db {A} (use : M World A) : M World A :=
  (SessionLocal ;;;
   try_finally use db_close)%py.

(** What the start-up and shut-down code of the process acts on: the
    standard output, whether the tables of the metadata exist, whether
    the engine's pool has been disposed of. *)
Record Process : Type := mkProcess {
  output : list string;
  tables_created : bool;
  engine_disposed : bool;
}.

Definition echo (line : string) : M Process unit :=
  modify (fun s =>
    mkProcess (output s ++ [line])%list (tables_created s) (engine_disposed s)).

Section Lifespan.

(** The module global, and the exception [create_all] raises, if any. *)
Variable sentiment_pipeline : option Pipeline.
Variable create_all_fault : option exn.

(** [Base.metadata.create_all(bind=engine)] *)
Definition create_all : M Process unit :=
  match create_all_fault with
  | Some e => raise e
  | None =>
      modify (fun s => mkProcess (output s) true (engine_disposed s))
  end.

(** Lines 56-61. *)
Definition create_db_tables : M Process unit :=
  try_except
    (create_all ;;;
     echo "Database tables created successfully.")%py
    (fun e => echo ("Error creating database tables: " ++ str e)).

(** [lifespan] up to its [yield], lines 68-75. *)
Definition lifespan_startup : M Process unit :=
  (echo "FastAPI app starting up..." ;;;
   echo "Connecting to database..." ;;;
   create_db_tables ;;;
   echo "Loading Hugging Face model..." ;;;
   match sentiment_pipeline with
   | None => echo "Model loading failed. API will not be functional."
   | Some _ => echo "Model loaded successfully."
   end)%py.

(** [lifespan] after its [yield], lines 78-80. *)
Definition lifespan_shutdown : M Process unit :=
  (echo "FastAPI app shutting down..." ;;;
   modify (fun s => mkProcess (output s) (tables_created s) true) ;;;
   echo "Database connection closed.")%py.

End Lifespan.

End Main.


(** ** [src/dashboard/app.py]: the Analytics Reader *)

Module Dashboard.

(** The frame [pd.read_sql] returns: the rows in the order read. *)
Definition DataFrame : Type := list QueryLog.

(** The value of [avg_score]: a number written in the script, [nan], or
    the float64 mean that pandas computes for a column with at least one
    entry.  That mean is rounded, and its rounding depends on the order in
    which numpy adds; it is not computed here, the term stands for it. *)
Inductive pyfloat : Type :=
| Num (q : Q)
| NaN
| float64_mean (column : list (option Q)).

Record Engine : Type := mkEngine { url : string }.

(** The database behind the engine, as one read sees it: whether the
    connection or the statement raises, and the rows of [query_logs]. *)
Record LogStore : Type := mkLogStore {
  connect_fault : option exn;
  query_fault : option exn;
  table : list QueryLog;
}.

(** Order of [timestamp] values in the store.  PostgreSQL places NULL above
    every instant, so NULL timestamps come first under [DESC]. *)
Definition instant_leb (a b : option Z) : bool :=
  match a, b with
  | _, None => true
  | None, Some _ => false
  | Some x, Some y => x <=? y
  end.

(** [x] may precede [y] in [ORDER BY timestamp DESC]. *)
Definition newest_first (x y : QueryLog) : Prop :=
  Is_true (instant_leb (timestamp y) (timestamp x)).

#[global] Instance newest_first_dec (x y : QueryLog) : Decision (newest_first x y).
Proof. unfold newest_first. apply _. Defined.

(** The one statement the dashboard sends. *)
Definition query : string :=
  "SELECT * FROM query_logs ORDER BY timestamp DESC LIMIT 5000".

(** What the store answers to a statement.  Only [query] is interpreted:
    the rows sorted by timestamp descending, cut after 5000. *)
Definition execute (store : LogStore) (sql : string) : result DataFrame :=
  match query_fault store with
  | Some e => Raise e
  | None =>
      if String.eqb sql query
      then Ok (take 5000 (merge_sort newest_first (table store)))
      else Raise (Exception "unsupported statement")
  end.

(** Elements the script puts on the page. *)
Inductive element : Type :=
| st_error (body : string)
| st_info (body : string).

Definition Page : Type := list element.

Definition show (e : element) : M Page unit :=
  modify (fun page => (page ++ [e])%list).

(** [timedelta(hours=h)] and [timedelta(days=d)], in microseconds. *)
Definition timedelta_hours (h : Z) : Z := h * 3600 * 1000000.
Definition timedelta_days (d : Z) : Z := d * 24 * 3600 * 1000000.

(** One entry of the mask [df['timestamp'] > cutoff]; a missing timestamp
    compares false.  The column is taken to be timezone-aware, as the
    store's [timestamptz] values are. *)
Definition after (cutoff : Z) (row : QueryLog) : bool :=
  match timestamp row with
  | Some t => cutoff <? t
  | None => false
  end.

(** Lines 79-87: the chain on the selected range; [now] is the value of
    [datetime.now(timezone.utc)] in the branch taken. *)
Definition apply_time_filter (time_filter : string) (now : Z) (df : DataFrame)
  : DataFrame :=
  if String.eqb time_filter "Last Hour" then
    let cutoff := now - timedelta_hours 1 in
    List.filter (after cutoff) df
  else if String.eqb time_filter "Last 24 Hours" then
    let cutoff := now - timedelta_hours 24 in
    List.filter (after cutoff) df
  else if String.eqb time_filter "Last 7 Days" then
    let cutoff := now - timedelta_days 7 in
    List.filter (after cutoff) df
  else df.

(** One entry of the mask [df['model_label'] == name]. *)
Definition label_is (name : string) (row : QueryLog) : bool :=
  match model_label row with
  | Some l => String.eqb l name
  | None => false
  end.

(** [Series.mean()] with its default [skipna=True]: missing entries are
    left out of the count; without any entry the mean is [nan], otherwise
    it is the float64 mean of the column. *)
Definition series_mean (column : list (option Q)) : pyfloat :=
  let count := length (List.filter (fun x : option Q => bool_decide (is_Some x)) column) in
  if (0 <? count)%nat
  then float64_mean column
  else NaN.

(** Lines 96-99: the KPI values. *)
Definition total_queries (df : DataFrame) : nat := length df.

Definition positive_count (df : DataFrame) : nat :=
  length (List.filter (label_is "POSITIVE") df).

Definition negative_count (df : DataFrame) : nat :=
  length (List.filter (label_is "NEGATIVE") df).

Definition avg_score (df : DataFrame) : pyfloat :=
  if (0 <? total_queries df)%nat
  then series_mean (map model_score df)
  else Num 0.

Record Metrics : Type := mkMetrics {
  shown : DataFrame;
  metric_total : nat;
  metric_positive : nat;
  metric_negative : nat;
  metric_avg : pyfloat;
}.

Section Script.

(** The environment variable, SQLAlchemy's [create_engine], the store. *)
Variable DATABASE_URL : option string.
Variable create_engine : string -> result Engine.
Variable store : LogStore.

(** Lines 33-43. *)
Definition get_database_connection : M Page (option Engine) :=
  if negb (truthy DATABASE_URL) then
    (show (st_error "DATABASE_URL environment variable is not set.") ;;;
     ret None)%py
  else
    try_except
      (engine <- (fun page => (create_engine (default "" DATABASE_URL), page)) ;;
       ret (Some engine))%py
      (fun e =>
         show (st_error ("Failed to connect to database: " ++ str e)) ;;;
         ret None)%py.

(** [engine.connect()] *)
Definition connect (engine : Engine) : M Page unit :=
  match connect_fault store with
  | Some e => raise e
  | None => ret tt
  end.

(** [pd.read_sql(query, conn)] *)
Definition read_sql (sql : string) : M Page DataFrame :=
  fun page => (execute store sql, page).

(** Lines 47-59. *)
Definition load_data (engine : option Engine) : M Page DataFrame :=
  match engine with
  | None => ret []
  | Some engine =>
      try_except
        (connect engine ;;;
         df <- read_sql query ;;
         ret df)%py
        (fun e =>
           show (st_error ("Error fetching data: " ++ str e)) ;;;
           ret [])%py
  end.

(** One run of the script, lines 45-104, for the range picked in the
    sidebar and the clock reading [now]; charts and the table are left out.
    [None] is the run that renders nothing below the sidebar. *)
Definition script (time_filter : string) (now : Z) : M Page (option Metrics) :=
  (engine <- get_database_connection ;;
   df <- load_data engine ;;
   if negb (bool_decide (df = [])) then
     let df := apply_time_filter time_filter now df in
     (if bool_decide (df = [])
      then show (st_info "No data available for the selected time range.")
      else ret tt) ;;;
     ret (Some (mkMetrics df (total_queries df) (positive_count df)
                          (negative_count df) (avg_score df)))
   else ret None)%py.

End Script.

End Dashboard.


(** * Statements and sample data *)

Module MainSpec.

Import Main.

Local Open Scope list_scope.

(** A row has both model columns filled. *)
Definition model_columns_filled (row : QueryLog) : Prop :=
  is_Some (model_label row) /\ is_Some (model_score row).

(** The row the store makes of the endpoint's [new_log]. *)
Definition logged_row (w : World) (request : QueryRequest) (first : Candidate)
  : QueryLog :=
  mkQueryLog (Some (next_id w)) (Some (clock w)) (text request)
             (Some (label first)) (Some (score first)).

(** Sample collaborators used to run the model. *)
Definition sample_world : World := mkWorld [] 1 1000 None [] [].

Definition sample_pipeline : Pipeline :=
  fun _ => Ok [mkCandidate "POSITIVE" (98 # 100); mkCandidate "NEGATIVE" (2 # 100)].

Definition sample_pipeline_single : Pipeline :=
  fun _ => Ok [mkCandidate "POSITIVE" (98 # 100)].

Definition sample_request : QueryRequest := mkQueryRequest "I love this product".

Definition refresh_fails : Faults :=
  mkFaults None None (Some (Exception "server closed the connection")).

Definition commit_fails : Faults :=
  mkFaults None (Some (Exception "could not connect to server")) None.

(** The statement of the specification that every failure after the
    readiness check leaves the table as it was and is answered 500. *)
Definition rollback_on_every_failure : Prop :=
  forall p faults request w,
    (forall response,
       fst (query_model (Some p) faults request w) <> Ok response) ->
    query_logs (snd (query_model (Some p) faults request w)) = query_logs w
    /\ exists detail,
         fst (query_model (Some p) faults request w)
         = Raise (HTTPException 500 detail).

End MainSpec.


Module DashboardSpec.

Import Dashboard.

Local Open Scope list_scope.

(** Sample rows. *)
Definition sample_row (i t : Z) (l : string) (s : Q) : QueryLog :=
  mkQueryLog (Some i) (Some t) "some text" (Some l) (Some s).

Definition sample_frame : DataFrame :=
  [sample_row 3 9000000000 "POSITIVE" (3 # 4);
   sample_row 2 5000000000 "NEUTRAL" (1 # 2);
   sample_row 1 1000000000 "NEGATIVE" (1 # 4)].

Definition sample_store : LogStore :=
  mkLogStore None None
    [sample_row 1 1000000000 "NEGATIVE" (1 # 4);
     sample_row 3 9000000000 "POSITIVE" (3 # 4);
     sample_row 2 5000000000 "NEUTRAL" (1 # 2)].


End DashboardSpec.


Module StartupSpec.

(** The statement that every program reading [DATABASE_URL] refuses to
    start without it. *)
Definition startup_refused_everywhere : Prop :=
  (forall h, Main.getenv_DATABASE_URL h = None ->
             exists e, Main.module_init h = Raise e)
  /\ (forall create_engine store time_filter now page,
        exists e,
          fst (Dashboard.script None create_engine store time_filter now page)
          = Raise e).

End StartupSpec.


(** * Properties of the Query Service *)

Module MainProps.

Import Main MainSpec.

Local Open Scope list_scope.

(** Unfolds one run of the endpoint down to the store operations. *)
Ltac run_endpoint :=
  cbv [query_model SessionLocal db_add db_commit db_refresh db_rollback
       db_close fail_with print getitem0
       bind ret raise modify try_except try_finally].

(** The end-to-end example of the specification. *)
Example query_model_end_to_end :
  query_model (Some sample_pipeline) no_faults sample_request sample_world
  = (Ok (mkQueryResponse "I love this product" "POSITIVE" (98 # 100)),
     mkWorld [mkQueryLog (Some 1) (Some 1000) "I love this product"
                         (Some "POSITIVE") (Some (98 # 100))]
             2 1000 None
             [SessionLocal_call; add_call; commit_call; refresh_call; close_call]
             []).
Proof. reflexivity. Qed.

(** The run in which nothing raises. *)
Lemma query_model_success pipeline request w first rest :
  pipeline (text request) = Ok (first :: rest) ->
  query_model (Some pipeline) no_faults request w
  = (Ok (mkQueryResponse (text request) (label first) (score first)),
     mkWorld (query_logs w ++ [logged_row w request first])
             (next_id w + 1) (clock w) None
             (calls w ++ [SessionLocal_call; add_call; commit_call;
                          refresh_call; close_call])
             (stdout w)).
Proof.
  intros Hp. run_endpoint. rewrite Hp. simpl.
  unfold flush, called, set_session, logged_row. simpl.
  repeat rewrite <- app_assoc. reflexivity.
Qed.

(** What a run leaves in the table: the old rows, then nothing or the one
    row made of the request and the first candidate. *)
Lemma query_model_table pipeline faults request w :
  query_logs (snd (query_model pipeline faults request w)) = query_logs w
  \/ exists p first rest,
       pipeline = Some p
       /\ p (text request) = Ok (first :: rest)
       /\ add_fault faults = None
       /\ commit_fault faults = None
       /\ query_logs (snd (query_model pipeline faults request w))
          = query_logs w ++ [logged_row w request first].
Proof.
  destruct pipeline as [p|]; [|left; reflexivity].
  run_endpoint.
  destruct (p (text request)) as [[|first rest]|e] eqn:Hp; simpl;
    try (left; reflexivity).
  destruct (add_fault faults) eqn:Ha; simpl; [left; reflexivity|].
  destruct (commit_fault faults) eqn:Hc; simpl; [left; reflexivity|].
  right. exists p, first, rest. repeat split; try assumption.
  destruct (refresh_fault faults); reflexivity.
Qed.

(** C1.  For a non-empty text, a call of the endpoint that returns a
    response appends exactly one row to [query_logs]; the row carries the
    submitted text, and its label and score are those of the response. *)
Theorem query_success_logs_one_row pipeline faults request w response w' :
  text request <> "" ->
  query_model pipeline faults request w = (Ok response, w') ->
  exists row,
    query_logs w' = query_logs w ++ [row]
    /\ input_text row = text request
    /\ model_label row = Some (sentiment_label response)
    /\ model_score row = Some (sentiment_score response).
Proof.
  intros _ Hrun.
  destruct pipeline as [p|]; [|discriminate Hrun].
  revert Hrun. run_endpoint.
  destruct (p (text request)) as [[|first rest]|e]; simpl; try discriminate.
  destruct (add_fault faults); simpl; try discriminate.
  destruct (commit_fault faults); simpl; try discriminate.
  destruct (refresh_fault faults); simpl; try discriminate.
  intros [= <- <-]. simpl.
  exists (logged_row w request first). repeat split.
Qed.

Lemma query_success_logs_one_row_witness :
  exists row,
    query_logs (snd (query_model (Some sample_pipeline) no_faults
                                 sample_request sample_world))
    = query_logs sample_world ++ [row]
    /\ input_text row = "I love this product"
    /\ model_label row = Some "POSITIVE"
    /\ model_score row = Some (98 # 100).
Proof.
  apply (query_success_logs_one_row (Some sample_pipeline) no_faults
           sample_request sample_world
           (mkQueryResponse "I love this product" "POSITIVE" (98 # 100))).
  - discriminate.
  - reflexivity.
Defined.

(** A pipeline that fails to load leaves the handle [None]; the module
    is imported all the same. *)
Lemma failed_load_leaves_no_handle h e g :
  pipeline_load h = Raise e ->
  module_init h = Ok g ->
  sentiment_pipeline g = None.
Proof.
  unfold module_init. intros ->.
  destruct (truthy (getenv_DATABASE_URL h)); [|discriminate].
  simpl. destruct (create_engine h _); [|discriminate].
  intros [= <-]. reflexivity.
Qed.

(** C2.  When the pipeline handle is [None] the endpoint raises the 503
    [HTTPException] and leaves the world as it was: no session call is
    made, no session is open, the table is unchanged. *)
Theorem unavailable_model_touches_nothing faults request w :
  let outcome := query_model None faults request w in
  fst outcome
  = Raise (HTTPException 503 "Model is not available. Check server logs.")
  /\ snd outcome = w
  /\ calls (snd outcome) = calls w
  /\ session_new (snd outcome) = session_new w
  /\ query_logs (snd outcome) = query_logs w.
Proof. repeat split. Qed.

(** Whatever raises inside the [try], the handler answers with the 500
    [HTTPException], after a rollback, and the session is closed. *)
Lemma failure_is_internal_error p faults request w :
  (exists response,
     fst (query_model (Some p) faults request w) = Ok response)
  \/ (exists e,
        fst (query_model (Some p) faults request w)
        = Raise (HTTPException 500
                   ("An internal server error occurred: " ++ str e)%string)
        /\ In rollback_call (calls (snd (query_model (Some p) faults request w))))
     /\ session_new (snd (query_model (Some p) faults request w)) = None.
Proof.
  run_endpoint.
  destruct (p (text request)) as [[|first rest]|e]; simpl.
  - right. split; [|reflexivity].
    exists (IndexError "list index out of range").
    split; [reflexivity|]. rewrite !in_app_iff. simpl. tauto.
  - destruct (add_fault faults) as [e|]; simpl.
    { right. split; [|reflexivity]. exists e.
      split; [reflexivity|]. rewrite !in_app_iff. simpl. tauto. }
    destruct (commit_fault faults) as [e|]; simpl.
    { right. split; [|reflexivity]. exists e.
      split; [reflexivity|]. rewrite !in_app_iff. simpl. tauto. }
    destruct (refresh_fault faults) as [e|]; simpl.
    { right. split; [|reflexivity]. exists e.
      split; [reflexivity|]. rewrite !in_app_iff. simpl. tauto. }
    left. eexists. reflexivity.
  - right. split; [|reflexivity]. exists e.
    split; [reflexivity|]. rewrite !in_app_iff. simpl. tauto.
Qed.

(** A run in which the commit goes through and the refresh that follows it
    raises: the caller is answered 500, and the row stays in the table. *)
Lemma refresh_failure_keeps_row :
  query_model (Some sample_pipeline) refresh_fails sample_request sample_world
  = (Raise (HTTPException 500
       "An internal server error occurred: server closed the connection"),
     mkWorld [mkQueryLog (Some 1) (Some 1000) "I love this product"
                         (Some "POSITIVE") (Some (98 # 100))]
             2 1000 None
             [SessionLocal_call; add_call; commit_call; refresh_call;
              rollback_call; close_call]
             ["Error during query: server closed the connection"%string])
  /\ query_logs sample_world = []
  /\ ~ rollback_on_every_failure.
Proof.
  split; [reflexivity|]. split; [reflexivity|].
  intros H.
  destruct (H sample_pipeline refresh_fails sample_request sample_world)
    as [Hrows _]; [intros response; discriminate|].
  discriminate Hrows.
Qed.

(** C3, amended.  With the pipeline loaded, a call that does not return a
    response raises the 500 [HTTPException] whose detail carries the cause;
    the session has been rolled back and is closed; and when the failure
    is raised before the commit has gone through (by the pipeline, by an
    empty result, by [add] or by [commit]), the table is as it was. *)
Theorem failure_is_500_and_uncommitted_work_is_dropped
    p faults request w r w' :
  query_model (Some p) faults request w = (r, w') ->
  (forall response, r <> Ok response) ->
  (exists e,
     r = Raise (HTTPException 500
                  ("An internal server error occurred: " ++ str e)%string))
  /\ In rollback_call (calls w')
  /\ session_new w' = None
  /\ (refresh_fault faults = None
      \/ is_Some (commit_fault faults)
      \/ is_Some (add_fault faults)
      \/ (forall first rest, p (text request) <> Ok (first :: rest)) ->
      query_logs w' = query_logs w).
Proof.
  intros Hrun Hfail.
  pose proof (failure_is_internal_error p faults request w) as Hcase.
  pose proof (query_model_table (Some p) faults request w) as Htable.
  rewrite Hrun in Hcase, Htable. cbn [fst snd] in Hcase, Htable.
  destruct Hcase as [[response Hok] | [[e [He Hrb]] Hclosed]].
  { exfalso. exact (Hfail response Hok). }
  split; [exists e; exact He|]. split; [exact Hrb|]. split; [exact Hclosed|].
  intros Hbefore.
  destruct Htable
    as [Hsame | (p' & first & rest & [= <-] & Hp & Ha & Hc & _)];
    [exact Hsame|].
  exfalso.
  destruct Hbefore as [Hrefresh | [[? H] | [[? H] | H]]];
    [| congruence | congruence | exact (H first rest Hp)].
  revert Hrun. run_endpoint.
  rewrite Hp, Ha, Hc, Hrefresh. simpl. intros [= <- _].
  exact (Hfail _ eq_refl).
Qed.

Lemma failure_is_500_and_uncommitted_work_is_dropped_witness :
  (exists e,
     Raise (A := QueryResponse) (HTTPException 500
       "An internal server error occurred: could not connect to server")
     = Raise (HTTPException 500
                ("An internal server error occurred: " ++ str e)%string))
  /\ In rollback_call
        [SessionLocal_call; add_call; commit_call; rollback_call; close_call]
  /\ (None : option (list QueryLog)) = None
  /\ (refresh_fault commit_fails = None
      \/ is_Some (commit_fault commit_fails)
      \/ is_Some (add_fault commit_fails)
      \/ (forall first rest,
            sample_pipeline (text sample_request) <> Ok (first :: rest)) ->
      ([] : list QueryLog) = query_logs sample_world).
Proof.
  apply (failure_is_500_and_uncommitted_work_is_dropped
           sample_pipeline commit_fails sample_request sample_world
           (Raise (HTTPException 500
              "An internal server error occurred: could not connect to server"))
           (mkWorld [] 1 1000 None
              [SessionLocal_call; add_call; commit_call; rollback_call;
               close_call]
              ["Error during query: could not connect to server"%string])).
  - reflexivity.
  - intros response H. discriminate H.
Defined.

(** C7.  When the pipeline returns several candidates, the first one is
    what the service uses and the only one.  The label and score of every
    response, and of every row a call logs, are those of the first
    candidate; with a store that does not fail the call is served with
    them; and two pipelines whose results for the text start with the same
    candidate give the same outcome and leave the same world, so what
    follows the first candidate is never read. *)
Theorem only_first_candidate_is_used p1 p2 faults request w first rest1 rest2 :
  p1 (text request) = Ok (first :: rest1) ->
  p2 (text request) = Ok (first :: rest2) ->
  query_model (Some p1) faults request w
  = query_model (Some p2) faults request w
  /\ (forall response w',
        query_model (Some p1) faults request w = (Ok response, w') ->
        response = mkQueryResponse (text request) (label first) (score first)
        /\ query_logs w' = query_logs w ++ [logged_row w request first])
  /\ (query_logs (snd (query_model (Some p1) faults request w)) = query_logs w
      \/ query_logs (snd (query_model (Some p1) faults request w))
         = query_logs w ++ [logged_row w request first])
  /\ query_model (Some p1) no_faults request w
     = (Ok (mkQueryResponse (text request) (label first) (score first)),
        mkWorld (query_logs w ++ [logged_row w request first])
                (next_id w + 1) (clock w) None
                (calls w ++ [SessionLocal_call; add_call; commit_call;
                             refresh_call; close_call])
                (stdout w)).
Proof.
  intros H1 H2. split; [|split; [|split]].
  - run_endpoint. rewrite H1, H2. reflexivity.
  - intros response w'. run_endpoint. rewrite H1. simpl.
    destruct (add_fault faults); simpl; try discriminate.
    destruct (commit_fault faults); simpl; try discriminate.
    destruct (refresh_fault faults); simpl; try discriminate.
    intros [= <- <-]. split; reflexivity.
  - destruct (query_model_table (Some p1) faults request w)
      as [Hsame | (p & first' & rest' & [= <-] & Hp & _ & _ & Hrow)];
      [left; exact Hsame|].
    right. rewrite Hrow. rewrite H1 in Hp. injection Hp as <- _. reflexivity.
  - exact (query_model_success p1 request w first rest1 H1).
Qed.

Lemma only_first_candidate_is_used_witness :
  query_model (Some sample_pipeline) no_faults sample_request sample_world
  = query_model (Some sample_pipeline_single) no_faults sample_request
                sample_world
  /\ (forall response w',
        query_model (Some sample_pipeline) no_faults sample_request sample_world
        = (Ok response, w') ->
        response = mkQueryResponse "I love this product" "POSITIVE" (98 # 100)
        /\ query_logs w'
           = [mkQueryLog (Some 1) (Some 1000) "I love this product"
                         (Some "POSITIVE") (Some (98 # 100))])
  /\ (query_logs (snd (query_model (Some sample_pipeline) no_faults
                                   sample_request sample_world)) = []
      \/ query_logs (snd (query_model (Some sample_pipeline) no_faults
                                      sample_request sample_world))
         = [mkQueryLog (Some 1) (Some 1000) "I love this product"
                       (Some "POSITIVE") (Some (98 # 100))])
  /\ query_model (Some sample_pipeline) no_faults sample_request sample_world
     = (Ok (mkQueryResponse "I love this product" "POSITIVE" (98 # 100)),
        mkWorld [mkQueryLog (Some 1) (Some 1000) "I love this product"
                            (Some "POSITIVE") (Some (98 # 100))]
                2 1000 None
                [SessionLocal_call; add_call; commit_call; refresh_call;
                 close_call]
                []).
Proof.
  apply (only_first_candidate_is_used sample_pipeline sample_pipeline_single
           no_faults sample_request sample_world
           (mkCandidate "POSITIVE" (98 # 100))
           [mkCandidate "NEGATIVE" (2 # 100)] []).
  - reflexivity.
  - reflexivity.
Defined.

(** C9.  Whatever the pipeline and the store do, the rows a call of the
    endpoint adds to the table have a label and a score. *)
Theorem inserted_rows_have_label_and_score pipeline faults request w :
  exists new,
    query_logs (snd (query_model pipeline faults request w))
    = query_logs w ++ new
    /\ Forall model_columns_filled new.
Proof.
  destruct (query_model_table pipeline faults request w)
    as [Hsame | (p & first & rest & _ & _ & _ & _ & Hrow)].
  - exists []. rewrite app_nil_r. split; [exact Hsame | constructor].
  - exists [logged_row w request first]. split; [exact Hrow|].
    repeat constructor; simpl; eexists; reflexivity.
Qed.

(** Any text, empty or not, in a well-formed body is served when nothing
    raises. *)
Lemma post_query_success p s w first rest :
  p s = Ok (first :: rest) ->
  post_query (Some p) no_faults (JObject [("text"%string, JString s)]) w
  = (Success (mkQueryResponse s (label first) (score first)),
     mkWorld (query_logs w ++ [logged_row w (mkQueryRequest s) first])
             (next_id w + 1) (clock w) None
             (calls w ++ [SessionLocal_call; add_call; commit_call;
                          refresh_call; close_call])
             (stdout w)).
Proof.
  intros Hp. unfold post_query.
  replace (validate (JObject [("text"%string, JString s)]))
    with (Some (mkQueryRequest s)) by reflexivity.
  rewrite (query_model_success p (mkQueryRequest s) w first rest Hp).
  reflexivity.
Qed.

(** C10.  The body [{"text": ""}] passes validation, and with the model
    loaded, a first candidate returned for the empty text and no store
    failure, the call is answered with success and logs its row, by the
    same path as any other text. *)
Theorem empty_text_is_served p w first rest :
  p ""%string = Ok (first :: rest) ->
  validate (JObject [("text"%string, JString "")]) = Some (mkQueryRequest "")
  /\ post_query (Some p) no_faults (JObject [("text"%string, JString "")]) w
     = (Success (mkQueryResponse "" (label first) (score first)),
        mkWorld (query_logs w
                 ++ [mkQueryLog (Some (next_id w)) (Some (clock w)) ""
                                (Some (label first)) (Some (score first))])
                (next_id w + 1) (clock w) None
                (calls w ++ [SessionLocal_call; add_call; commit_call;
                             refresh_call; close_call])
                (stdout w)).
Proof.
  intros Hp. split; [reflexivity|].
  exact (post_query_success p "" w first rest Hp).
Qed.

Lemma empty_text_is_served_witness :
  validate (JObject [("text"%string, JString "")]) = Some (mkQueryRequest "")
  /\ post_query (Some sample_pipeline) no_faults
                (JObject [("text"%string, JString "")]) sample_world
     = (Success (mkQueryResponse "" "POSITIVE" (98 # 100)),
        mkWorld [mkQueryLog (Some 1) (Some 1000) ""
                            (Some "POSITIVE") (Some (98 # 100))]
                2 1000 None
                [SessionLocal_call; add_call; commit_call; refresh_call;
                 close_call]
                []).
Proof.
  apply (empty_text_is_served sample_pipeline sample_world
           (mkCandidate "POSITIVE" (98 # 100))
           [mkCandidate "NEGATIVE" (2 # 100)]).
  reflexivity.
Defined.

End MainProps.


(** * Properties of the Analytics Reader *)

Module DashboardProps.

Import Dashboard DashboardSpec.

Local Open Scope list_scope.

Example sample_metrics :
  total_queries sample_frame = 3%nat
  /\ positive_count sample_frame = 1%nat
  /\ negative_count sample_frame = 1%nat
  /\ avg_score sample_frame
     = float64_mean [Some (3 # 4); Some (1 # 2); Some (1 # 4)].
Proof. repeat split. Qed.

(** *** Aggregation *)

(** A row matches one label name at most. *)
Lemma label_is_unique (a b : string) (row : QueryLog) :
  label_is a row = true -> label_is b row = true -> a = b.
Proof.
  unfold label_is. destruct (model_label row) as [l|]; [|discriminate].
  intros Ha Hb. apply String.eqb_eq in Ha, Hb. congruence.
Qed.

Lemma label_counts_bounded (df : DataFrame) :
  (length (List.filter (label_is "POSITIVE") df)
   + length (List.filter (label_is "NEGATIVE") df) <= length df)%nat.
Proof.
  induction df as [|row df IH]; [reflexivity|].
  cbn [List.filter].
  destruct (label_is "POSITIVE" row) eqn:Hp;
    destruct (label_is "NEGATIVE" row) eqn:Hn; cbn [length]; try lia.
  discriminate (label_is_unique _ _ _ Hp Hn).
Qed.

(** *** Time-range filter *)

Lemma after_monotone (c1 c2 : Z) (row : QueryLog) :
  c2 <= c1 -> after c1 row = true -> after c2 row = true.
Proof.
  unfold after. destruct (timestamp row) as [t|]; [|discriminate].
  rewrite !Z.ltb_lt. lia.
Qed.

(** An earlier cutoff keeps every row a later one keeps, in the same order. *)
Lemma filter_after_sublist (c1 c2 : Z) (df : DataFrame) :
  c2 <= c1 ->
  sublist (List.filter (after c1) df) (List.filter (after c2) df).
Proof.
  intros Hle. induction df as [|row df IH]; [constructor|].
  cbn [List.filter].
  destruct (after c1 row) eqn:H1.
  - rewrite (after_monotone c1 c2 row Hle H1). apply sublist_skip, IH.
  - destruct (after c2 row); [apply sublist_cons, IH | exact IH].
Qed.

Lemma filter_sublist_frame (f : QueryLog -> bool) (df : DataFrame) :
  sublist (List.filter f df) df.
Proof.
  induction df as [|row df IH]; [constructor|].
  cbn [List.filter]. destruct (f row);
    [apply sublist_skip, IH | apply sublist_cons, IH].
Qed.

(** C5.  For one frame and one reading of the clock, the rows kept for the
    last hour are among those kept for the last 24 hours, these among
    those kept for the last 7 days, and these among all rows, which is what
    "All Time" keeps. *)
Theorem time_filter_narrows (df : DataFrame) (now : Z) :
  apply_time_filter "Last Hour" now df
    ⊆ apply_time_filter "Last 24 Hours" now df
  /\ apply_time_filter "Last 24 Hours" now df
    ⊆ apply_time_filter "Last 7 Days" now df
  /\ apply_time_filter "Last 7 Days" now df
    ⊆ apply_time_filter "All Time" now df
  /\ apply_time_filter "All Time" now df = df.
Proof.
  change (apply_time_filter "Last Hour" now df)
    with (List.filter (after (now - timedelta_hours 1)) df).
  change (apply_time_filter "Last 24 Hours" now df)
    with (List.filter (after (now - timedelta_hours 24)) df).
  change (apply_time_filter "Last 7 Days" now df)
    with (List.filter (after (now - timedelta_days 7)) df).
  change (apply_time_filter "All Time" now df) with df.
  repeat split.
  - apply sublist_subseteq, filter_after_sublist.
    unfold timedelta_hours. lia.
  - apply sublist_subseteq, filter_after_sublist.
    unfold timedelta_hours, timedelta_days. lia.
  - apply sublist_subseteq, filter_sublist_frame.
Qed.

Example time_filter_sample :
  let now := 9000000001 in
  map id (apply_time_filter "Last Hour" now sample_frame) = [Some 3]
  /\ map id (apply_time_filter "Last 24 Hours" now sample_frame)
     = [Some 3; Some 2; Some 1].
Proof. split; reflexivity. Qed.

(** *** Loading *)

#[local] Instance newest_first_total : Total newest_first.
Proof.
  intros x y. unfold newest_first, instant_leb.
  destruct (timestamp x) as [a|], (timestamp y) as [b|]; simpl; auto.
  destruct (Z.leb_spec b a), (Z.leb_spec a b); simpl; auto. lia.
Qed.

#[local] Instance newest_first_trans : Transitive newest_first.
Proof.
  intros x y z. unfold newest_first, instant_leb.
  destruct (timestamp x) as [a|], (timestamp y) as [b|],
    (timestamp z) as [c|]; simpl; auto; try contradiction.
  rewrite !Is_true_true, !Z.leb_le. lia.
Qed.




End DashboardProps.


(** * Start-up without the connection string *)

Module StartupProps.

Import StartupSpec.

Local Open Scope list_scope.

(** Without the variable the dashboard script runs to its end: an error
    box on the page, no engine, an empty frame, nothing rendered. *)
Lemma dashboard_runs_without_url :
  Dashboard.script None (fun u => Ok (Dashboard.mkEngine u))
    DashboardSpec.sample_store "All Time" 0 []
  = (Ok None,
     [Dashboard.st_error "DATABASE_URL environment variable is not set."])
  /\ ~ startup_refused_everywhere.
Proof.
  split; [reflexivity|].
  intros [_ H].
  destruct (H (fun u => Ok (Dashboard.mkEngine u)) DashboardSpec.sample_store
              "All Time"%string 0 []) as [e He].
  discriminate He.
Qed.

(** C8, amended.  Without [DATABASE_URL] the Query Service module raises
    [ValueError] while it is imported, so the process does not start; the
    dashboard reports the missing variable on the page and goes on with no
    engine and an empty frame. *)
Theorem missing_url_stops_service_not_dashboard :
  (forall h,
     Main.getenv_DATABASE_URL h = None ->
     Main.module_init h
     = Raise (ValueError "DATABASE_URL environment variable not set"))
  /\ (forall create_engine store time_filter now page,
        Dashboard.script None create_engine store time_filter now page
        = (Ok None,
           page ++ [Dashboard.st_error
                      "DATABASE_URL environment variable is not set."])
        /\ Dashboard.get_database_connection None create_engine page
           = (Ok None,
              page ++ [Dashboard.st_error
                         "DATABASE_URL environment variable is not set."])
        /\ forall page', Dashboard.load_data store None page' = (Ok [], page')).
Proof.
  split.
  - intros h Hurl. unfold Main.module_init. rewrite Hurl. reflexivity.
  - intros create_engine store time_filter now page. repeat split.
Qed.

Lemma missing_url_stops_service_not_dashboard_witness :
  Main.module_init
    (Main.mkHost None (Ok MainSpec.sample_pipeline)
                 (fun u => Ok (Main.mkEngine u)))
  = Raise (ValueError "DATABASE_URL environment variable not set").
Proof.
  destruct missing_url_stops_service_not_dashboard as [H _].
  apply (H (Main.mkHost None (Ok MainSpec.sample_pipeline)
                        (fun u => Ok (Main.mkEngine u)))).
  reflexivity.
Defined.

End StartupProps.


(** * Further properties of the Query Service *)

Module MainExtra.

Import Main MainSpec.

Local Open Scope list_scope.

Ltac run_endpoint :=
  cbv [query_model SessionLocal db_add db_commit db_refresh db_rollback
       db_close fail_with print getitem0
       bind ret raise modify try_except try_finally].

(** Closes a goal [exists mid, calls = old ++ [open] ++ mid ++ [close] /\ ...]
    with the given middle part. *)
Ltac with_calls mid :=
  exists mid; split;
  [ simpl; rewrite <- ?app_assoc; reflexivity
  | split; simpl; intuition discriminate ].

(** X1.  Every call that gets past the readiness check opens one session
    and closes it last, on the success path and on every failure path;
    no object is left pending. *)
Theorem session_opened_once_and_closed p faults request w :
  session_new (snd (query_model (Some p) faults request w)) = None
  /\ exists mid,
       calls (snd (query_model (Some p) faults request w))
       = calls w ++ [SessionLocal_call] ++ mid ++ [close_call]
       /\ ~ In SessionLocal_call mid
       /\ ~ In close_call mid.
Proof.
  run_endpoint.
  destruct (p (text request)) as [[|first rest]|e]; simpl.
  - split; [reflexivity|]. with_calls [rollback_call].
  - destruct (add_fault faults); simpl.
    { split; [reflexivity|]. with_calls [add_call; rollback_call]. }
    destruct (commit_fault faults); simpl.
    { split; [reflexivity|]. with_calls [add_call; commit_call; rollback_call]. }
    destruct (refresh_fault faults); simpl.
    { split; [reflexivity|].
      with_calls [add_call; commit_call; refresh_call; rollback_call]. }
    split; [reflexivity|]. with_calls [add_call; commit_call; refresh_call].
  - split; [reflexivity|]. with_calls [rollback_call].
Qed.

(** X2.  The endpoint returns a response exactly when the pipeline
    returns a non-empty list and none of [add], [commit], [refresh]
    raises; an empty list is a failure like any other. *)
Theorem success_condition p faults request w :
  (exists response,
     fst (query_model (Some p) faults request w) = Ok response)
  <-> (exists first rest, p (text request) = Ok (first :: rest))
      /\ add_fault faults = None
      /\ commit_fault faults = None
      /\ refresh_fault faults = None.
Proof.
  run_endpoint.
  destruct (p (text request)) as [[|first rest]|e]; simpl.
  - split; [intros [? H]; discriminate H | intros [(? & ? & H) _]; discriminate H].
  - destruct (add_fault faults); simpl.
    { split; [intros [? H]; discriminate H | intros (_ & H & _); discriminate H]. }
    destruct (commit_fault faults); simpl.
    { split; [intros [? H]; discriminate H | intros (_ & _ & H & _); discriminate H]. }
    destruct (refresh_fault faults); simpl.
    { split; [intros [? H]; discriminate H | intros (_ & _ & _ & H); discriminate H]. }
    split; [|eexists; reflexivity].
    intros _. split; [exists first, rest; reflexivity | repeat split].
  - split; [intros [? H]; discriminate H | intros [(? & ? & H) _]; discriminate H].
Qed.

(** X3.  A call that returns a response has made exactly the calls
    [SessionLocal], [add], [commit], [refresh], [close], in this order (so
    no rollback), has printed nothing, and the response echoes the text
    of the request. *)
Theorem success_is_silent pipeline faults request w response w' :
  query_model pipeline faults request w = (Ok response, w') ->
  calls w' = calls w ++ [SessionLocal_call; add_call; commit_call;
                         refresh_call; close_call]
  /\ stdout w' = stdout w
  /\ response_input_text response = text request.
Proof.
  destruct pipeline as [p|]; [|discriminate].
  run_endpoint.
  destruct (p (text request)) as [[|first rest]|e]; simpl; try discriminate.
  destruct (add_fault faults); simpl; try discriminate.
  destruct (commit_fault faults); simpl; try discriminate.
  destruct (refresh_fault faults); simpl; try discriminate.
  intros [= <- <-]. simpl. rewrite <- !app_assoc. repeat split.
Qed.

Lemma success_is_silent_witness :
  [SessionLocal_call; add_call; commit_call; refresh_call; close_call]
  = calls sample_world ++ [SessionLocal_call; add_call; commit_call;
                           refresh_call; close_call]
  /\ ([] : list string) = stdout sample_world
  /\ "I love this product"%string = text sample_request.
Proof.
  apply (success_is_silent (Some sample_pipeline) no_faults sample_request
           sample_world
           (mkQueryResponse "I love this product" "POSITIVE" (98 # 100))
           (mkWorld [mkQueryLog (Some 1) (Some 1000) "I love this product"
                                (Some "POSITIVE") (Some (98 # 100))]
                    2 1000 None
                    [SessionLocal_call; add_call; commit_call; refresh_call;
                     close_call]
                    [])).
  reflexivity.
Defined.

(** X4.  A call that fails after the readiness check prints one line,
    and that line names the same cause as the detail of the 500 it
    raises. *)
Theorem failure_is_printed_once p faults request w e w' :
  query_model (Some p) faults request w = (Raise e, w') ->
  exists cause,
    e = HTTPException 500
          ("An internal server error occurred: " ++ str cause)%string
    /\ stdout w' = stdout w ++ [("Error during query: " ++ str cause)%string].
Proof.
  run_endpoint.
  destruct (p (text request)) as [[|first rest]|cause]; simpl.
  - intros [= <- <-]. exists (IndexError "list index out of range").
    split; reflexivity.
  - destruct (add_fault faults) as [cause|]; simpl.
    { intros [= <- <-]. exists cause. split; reflexivity. }
    destruct (commit_fault faults) as [cause|]; simpl.
    { intros [= <- <-]. exists cause. split; reflexivity. }
    destruct (refresh_fault faults) as [cause|]; simpl; [|discriminate].
    intros [= <- <-]. exists cause. split; reflexivity.
  - intros [= <- <-]. exists cause. split; reflexivity.
Qed.

Lemma failure_is_printed_once_witness :
  exists cause,
    HTTPException 500
      "An internal server error occurred: could not connect to server"
    = HTTPException 500
        ("An internal server error occurred: " ++ str cause)%string
    /\ ["Error during query: could not connect to server"%string]
       = stdout sample_world ++ [("Error during query: " ++ str cause)%string].
Proof.
  apply (failure_is_printed_once sample_pipeline commit_fails sample_request
           sample_world
           (HTTPException 500
              "An internal server error occurred: could not connect to server")
           (mkWorld [] 1 1000 None
              [SessionLocal_call; add_call; commit_call; rollback_call;
               close_call]
              ["Error during query: could not connect to server"%string])).
  reflexivity.
Defined.

(** X5.  When the pipeline gives no first candidate (it raises, or it
    returns an empty list), the store is not written to at all: neither
    [add] nor [commit] is called, the only session calls are the opening,
    the rollback and the closing, and the table and the id sequence are as
    before. *)
Theorem failed_inference_writes_nothing p faults request w :
  (forall first rest, p (text request) <> Ok (first :: rest)) ->
  calls (snd (query_model (Some p) faults request w))
  = calls w ++ [SessionLocal_call; rollback_call; close_call]
  /\ query_logs (snd (query_model (Some p) faults request w)) = query_logs w
  /\ next_id (snd (query_model (Some p) faults request w)) = next_id w.
Proof.
  intros Hnone. run_endpoint.
  destruct (p (text request)) as [[|first rest]|e]; simpl.
  - rewrite <- !app_assoc. repeat split.
  - exfalso. exact (Hnone first rest eq_refl).
  - rewrite <- !app_assoc. repeat split.
Qed.

Lemma failed_inference_writes_nothing_witness :
  calls (snd (query_model (Some (fun _ => Ok [])) no_faults sample_request
                          sample_world))
  = calls sample_world ++ [SessionLocal_call; rollback_call; close_call]
  /\ query_logs (snd (query_model (Some (fun _ => Ok [])) no_faults
                                  sample_request sample_world))
     = query_logs sample_world
  /\ next_id (snd (query_model (Some (fun _ => Ok [])) no_faults
                               sample_request sample_world))
     = next_id sample_world.
Proof.
  apply (failed_inference_writes_nothing (fun _ => Ok []) no_faults
           sample_request sample_world).
  intros first rest H. discriminate H.
Defined.

(** X6.  Nothing is deduplicated: two calls in a row with the same
    request, both served, log two rows with the same text, label and
    score, under two different ids. *)
Theorem repeated_query_logs_two_rows p request w first rest :
  p (text request) = Ok (first :: rest) ->
  exists row1 row2,
    query_logs (snd (query_model (Some p) no_faults request
                       (snd (query_model (Some p) no_faults request w))))
    = query_logs w ++ [row1; row2]
    /\ input_text row1 = text request
    /\ input_text row2 = text request
    /\ model_label row1 = model_label row2
    /\ model_score row1 = model_score row2
    /\ id row1 <> id row2.
Proof.
  intros Hp.
  rewrite (MainProps.query_model_success p request w first rest Hp).
  cbn [snd].
  rewrite (MainProps.query_model_success p request _ first rest Hp).
  cbn [snd query_logs next_id clock].
  eexists _, _. split; [rewrite <- app_assoc; reflexivity|].
  unfold logged_row. cbn. repeat split.
  intros [= H]. lia.
Qed.

Lemma repeated_query_logs_two_rows_witness :
  exists row1 row2,
    query_logs (snd (query_model (Some sample_pipeline) no_faults sample_request
                       (snd (query_model (Some sample_pipeline) no_faults
                                         sample_request sample_world))))
    = query_logs sample_world ++ [row1; row2]
    /\ input_text row1 = text sample_request
    /\ input_text row2 = text sample_request
    /\ model_label row1 = model_label row2
    /\ model_score row1 = model_score row2
    /\ id row1 <> id row2.
Proof.
  apply (repeated_query_logs_two_rows sample_pipeline sample_request
           sample_world (mkCandidate "POSITIVE" (98 # 100))
           [mkCandidate "NEGATIVE" (2 # 100)]).
  reflexivity.
Defined.

(** X7.  [POST /query] answers with success, 422, 503 or 500 and nothing
    else.  Success comes with one more row; 422 (body rejected) and 503
    (no model) leave the world untouched; 500 is only raised with the
    model loaded. *)
Theorem post_query_statuses pipeline faults body w :
  match post_query pipeline faults body w with
  | (Success response, w') =>
      exists row, query_logs w' = query_logs w ++ [row]
  | (Failure code detail, w') =>
      (code = 422 /\ validate body = None /\ w' = w)
      \/ (code = 503 /\ pipeline = None /\ w' = w)
      \/ (code = 500 /\ pipeline <> None /\ session_new w' = None)
  end.
Proof.
  unfold post_query.
  destruct (validate body) as [request|]; [|left; repeat split].
  destruct pipeline as [p|]; [|right; left; repeat split].
  run_endpoint.
  destruct (p (text request)) as [[|first rest]|e]; simpl;
    try (right; right; repeat split; discriminate).
  destruct (add_fault faults); simpl;
    try (right; right; repeat split; discriminate).
  destruct (commit_fault faults); simpl;
    try (right; right; repeat split; discriminate).
  destruct (refresh_fault faults); simpl;
    try (right; right; repeat split; discriminate).
  eexists. reflexivity.
Qed.

(** X8.  Whether the module can be imported depends on the connection
    string and on [create_engine] only: it is imported exactly when the
    variable is set to a non-empty string and the engine is created.  A
    pipeline that fails to load never prevents it, and an empty connection
    string is refused like a missing one. *)
Theorem module_init_succeeds_iff h :
  (exists g, module_init h = Ok g)
  <-> exists u engine,
        getenv_DATABASE_URL h = Some u
        /\ u <> ""%string
        /\ create_engine h u = Ok engine.
Proof.
  unfold module_init, truthy.
  destruct (getenv_DATABASE_URL h) as [u|]; simpl.
  - destruct (String.eqb_spec u ""); simpl.
    + split; [intros [g H]; discriminate H|].
      intros (u' & engine & [= <-] & Hne & _). contradiction.
    + destruct (create_engine h u) as [engine|e] eqn:Hce.
      * split; [|eexists; reflexivity].
        intros _. exists u, engine. repeat split; assumption.
      * split; [intros [g H]; discriminate H|].
        intros (u' & engine & [= <-] & _ & H). congruence.
  - split; [intros [g H]; discriminate H|].
    intros (u & engine & H & _). discriminate H.
Qed.

(** X9.  The start-up code never raises, whatever [create_all] does: a
    failure to create the tables is printed and start-up goes on.  The
    tables exist afterwards unless [create_all] raised, the engine is not
    disposed of, and the last line printed tells whether the model is
    loaded. *)
Theorem lifespan_startup_never_raises pipeline create_all_fault s :
  exists s',
    lifespan_startup pipeline create_all_fault s = (Ok tt, s')
    /\ tables_created s'
       = match create_all_fault with
         | Some _ => tables_created s
         | None => true
         end
    /\ engine_disposed s' = engine_disposed s
    /\ exists lines,
         output s' = output s ++ lines
         /\ length lines = 5%nat
         /\ last lines
            = Some (match pipeline with
                    | Some _ => "Model loaded successfully."
                    | None => "Model loading failed. API will not be functional."
                    end)%string
         /\ (forall e, create_all_fault = Some e ->
             In ("Error creating database tables: " ++ str e)%string lines).
Proof.
  unfold lifespan_startup, create_db_tables, create_all, echo,
    try_except, bind, modify, raise.
  destruct create_all_fault as [e|], pipeline as [p|]; simpl;
    eexists; (split; [reflexivity|]); (split; [reflexivity|]);
    (split; [reflexivity|]); simpl; rewrite <- !app_assoc; simpl;
    eexists; (split; [reflexivity|]); (split; [reflexivity|]);
    (split; [reflexivity|]); intros e' [= <-] || intros e' [=];
    simpl; auto.
Qed.

(** X10.  [get_db] closes its session whatever the code using it does:
    after it, no session is open and [close] is the last call made; the
    outcome of the code using the session is passed on unchanged. *)
Theorem get_db_always_closes {A} (use : M World A) w :
  session_new (snd (get_db use w)) = None
  /\ last (calls (snd (get_db use w))) = Some close_call
  /\ fst (get_db use w)
     = fst (use (set_session (Some []) (called SessionLocal_call w))).
Proof.
  unfold get_db, SessionLocal, db_close, try_finally, bind, modify.
  destruct (use _) as [r w1]. simpl.
  rewrite last_snoc. repeat split.
Qed.

End MainExtra.


(** * Further properties of the Analytics Reader *)

Module DashboardExtra.

Import Dashboard DashboardSpec.

Local Open Scope list_scope.

(** *** Connection and loading *)

(** X11.  [get_database_connection] never raises.  It returns an engine
    exactly when the variable is set to a non-empty string and
    [create_engine] succeeds on it, and then puts nothing on the page; in
    every other case it returns [None] and puts one error box on the page:
    the missing-variable message for a missing or empty variable, the
    message of the exception when [create_engine] raises. *)
Theorem get_database_connection_outcomes url create_engine page :
  exists engine page',
    get_database_connection url create_engine page = (Ok engine, page')
    /\ (forall e,
          engine = Some e
          <-> exists u, url = Some u /\ u <> ""%string
                        /\ create_engine u = Ok e)
    /\ (is_Some engine -> page' = page)
    /\ (engine = None -> exists body, page' = page ++ [st_error body])
    /\ (truthy url = false ->
        page' = page ++ [st_error
                           "DATABASE_URL environment variable is not set."])
    /\ (forall u err,
          url = Some u -> u <> ""%string -> create_engine u = Raise err ->
          page' = page ++ [st_error
                             ("Failed to connect to database: " ++ str err)%string]).
Proof.
  unfold get_database_connection, truthy.
  destruct url as [u|]; simpl.
  - destruct (String.eqb_spec u "") as [-> | Hne]; simpl.
    + eexists _, _. split; [reflexivity|]. repeat split.
      * intros H. discriminate H.
      * intros (u & [= <-] & Hne & _). contradiction.
      * intros [? H]. discriminate H.
      * intros _. eexists. reflexivity.
      * intros u err [= <-] Hne. contradiction.
    + unfold try_except, bind, ret, show, modify.
      destruct (create_engine u) as [e|err] eqn:Hce.
      * eexists _, _. split; [reflexivity|]. repeat split.
        -- intros [= <-]. exists u. repeat split; assumption.
        -- intros (u' & [= <-] & _ & H). congruence.
        -- intros H. discriminate H.
        -- intros H. discriminate H.
        -- intros u' err [= <-] _ H. congruence.
      * eexists _, _. split; [reflexivity|]. repeat split.
        -- intros H. discriminate H.
        -- intros (u' & [= <-] & _ & H). congruence.
        -- intros [? H]. discriminate H.
        -- intros _. eexists. reflexivity.
        -- intros H. discriminate H.
        -- intros u' err' [= <-] _ H. congruence.
  - eexists _, _. split; [reflexivity|]. repeat split.
    + intros H. discriminate H.
    + intros (u & H & _). discriminate H.
    + intros [? H]. discriminate H.
    + intros _. eexists. reflexivity.
    + intros u err H. discriminate H.
Qed.

(** X12.  A failed read is reported once and by its cause: when the
    connection or the statement raises, [load_data] adds one error box
    whose text ends with the message of the exception raised first (the
    connection's, if both would fail); without an engine it adds nothing. *)
Theorem load_data_reports_the_cause store engine page :
  snd (load_data store engine page)
  = match engine, connect_fault store, query_fault store with
    | None, _, _ => page
    | Some _, Some e, _ | Some _, None, Some e =>
        page ++ [st_error ("Error fetching data: " ++ str e)%string]
    | Some _, None, None => page
    end.
Proof.
  destruct engine as [engine|]; [|reflexivity].
  unfold load_data, connect, read_sql, execute, try_except, bind, ret, raise,
    show, modify.
  destruct (connect_fault store); [reflexivity|].
  destruct (query_fault store); reflexivity.
Qed.



(** *** Time-range filter *)

(** The cutoff a range stands for; [None] for a range that is not
    filtered. *)
Lemma apply_time_filter_cases (time_filter : string) :
  (exists window,
     window ∈ [timedelta_hours 1; timedelta_hours 24; timedelta_days 7]
     /\ forall now' df',
          apply_time_filter time_filter now' df'
          = List.filter (after (now' - window)) df')
  \/ (forall now' df', apply_time_filter time_filter now' df' = df').
Proof.
  unfold apply_time_filter.
  destruct (String.eqb time_filter "Last Hour").
  { left. exists (timedelta_hours 1). split; [repeat constructor | reflexivity]. }
  destruct (String.eqb time_filter "Last 24 Hours").
  { left. exists (timedelta_hours 24). split; [repeat constructor | reflexivity]. }
  destruct (String.eqb time_filter "Last 7 Days").
  { left. exists (timedelta_days 7). split; [repeat constructor | reflexivity]. }
  right. reflexivity.
Qed.

(** X13.  Which rows a range keeps.  A row is kept by "Last Hour",
    "Last 24 Hours", "Last 7 Days" exactly when it has a timestamp strictly
    later than [now] minus 3 600 000 000, 86 400 000 000, 604 800 000 000
    microseconds; a row without timestamp, or one exactly at the cutoff,
    is dropped. *)
Theorem time_filter_keeps (df : DataFrame) (now : Z) (row : QueryLog) :
  (row ∈ apply_time_filter "Last Hour" now df
   <-> row ∈ df /\ exists t, timestamp row = Some t /\ now - 3600000000 < t)
  /\ (row ∈ apply_time_filter "Last 24 Hours" now df
      <-> row ∈ df /\ exists t, timestamp row = Some t /\ now - 86400000000 < t)
  /\ (row ∈ apply_time_filter "Last 7 Days" now df
      <-> row ∈ df /\ exists t, timestamp row = Some t /\ now - 604800000000 < t).
Proof.
  assert (Hkeep : forall cutoff,
            row ∈ List.filter (after cutoff) df
            <-> row ∈ df /\ exists t, timestamp row = Some t /\ cutoff < t).
  { intros cutoff. rewrite !list_elem_of_In, filter_In. unfold after.
    destruct (timestamp row) as [t|].
    - rewrite Z.ltb_lt. split.
      + intros [Hin Hlt]. split; [exact Hin|]. exists t. split; [reflexivity|lia].
      + intros [Hin (t' & [= <-] & Hlt)]. split; assumption.
    - split; [intros [_ H]; discriminate H|].
      intros [_ (t & H & _)]. discriminate H. }
  split; [exact (Hkeep (now - timedelta_hours 1))|].
  split; [exact (Hkeep (now - timedelta_hours 24))|].
  exact (Hkeep (now - timedelta_days 7)).
Qed.

(** X14.  A range name the chain does not know is not filtered at all. *)
Theorem unknown_range_is_not_filtered (time_filter : string) (now : Z)
    (df : DataFrame) :
  time_filter <> "Last Hour"%string ->
  time_filter <> "Last 24 Hours"%string ->
  time_filter <> "Last 7 Days"%string ->
  apply_time_filter time_filter now df = df.
Proof.
  intros H1 H2 H3. unfold apply_time_filter.
  apply String.eqb_neq in H1, H2, H3. rewrite H1, H2, H3. reflexivity.
Qed.

Lemma unknown_range_is_not_filtered_witness :
  apply_time_filter "last hour" 9000000001 sample_frame = sample_frame.
Proof.
  apply (unknown_range_is_not_filtered "last hour" 9000000001 sample_frame);
    discriminate.
Defined.

Lemma filter_after_twice (c1 c2 : Z) (df : DataFrame) :
  c2 <= c1 ->
  List.filter (after c1) (List.filter (after c2) df) = List.filter (after c1) df.
Proof.
  intros Hle. induction df as [|row df IH]; [reflexivity|].
  cbn [List.filter].
  destruct (after c2 row) eqn:H2; cbn [List.filter].
  - rewrite IH. reflexivity.
  - destruct (after c1 row) eqn:H1; [|exact IH].
    rewrite (DashboardProps.after_monotone c1 c2 row Hle H1) in H2.
    discriminate H2.
Qed.

(** X15.  Filtering a frame that was already filtered: applying a range
    twice is applying it once, and applying a narrower range to the result
    of a wider one is applying the narrower one to the frame. *)
Theorem time_filter_composes (df : DataFrame) (now : Z) :
  (forall time_filter,
     apply_time_filter time_filter now (apply_time_filter time_filter now df)
     = apply_time_filter time_filter now df)
  /\ apply_time_filter "Last Hour" now
       (apply_time_filter "Last 24 Hours" now df)
     = apply_time_filter "Last Hour" now df
  /\ apply_time_filter "Last Hour" now
       (apply_time_filter "Last 7 Days" now df)
     = apply_time_filter "Last Hour" now df
  /\ apply_time_filter "Last 24 Hours" now
       (apply_time_filter "Last 7 Days" now df)
     = apply_time_filter "Last 24 Hours" now df.
Proof.
  split.
  { intros time_filter.
    destruct (apply_time_filter_cases time_filter)
      as [(window & _ & Hw) | Hall]; [|rewrite !Hall; reflexivity].
    rewrite !Hw. apply filter_after_twice. lia. }
  change (apply_time_filter "Last Hour" now)
    with (List.filter (after (now - timedelta_hours 1))).
  change (apply_time_filter "Last 24 Hours" now)
    with (List.filter (after (now - timedelta_hours 24))).
  change (apply_time_filter "Last 7 Days" now)
    with (List.filter (after (now - timedelta_days 7))).
  repeat split; apply filter_after_twice;
    unfold timedelta_hours, timedelta_days; lia.
Qed.

(** X16.  As the clock advances a range can only lose rows: whatever the
    range, the rows kept at a later reading of the clock are among those
    kept at an earlier one. *)
Theorem time_filter_shrinks_with_time (time_filter : string) (now now' : Z)
    (df : DataFrame) :
  now <= now' ->
  apply_time_filter time_filter now' df ⊆ apply_time_filter time_filter now df.
Proof.
  intros Hle.
  destruct (apply_time_filter_cases time_filter)
    as [(window & _ & Hw) | Hall]; [|rewrite !Hall; reflexivity].
  rewrite !Hw. apply sublist_subseteq, DashboardProps.filter_after_sublist. lia.
Qed.

Lemma time_filter_shrinks_with_time_witness :
  apply_time_filter "Last Hour" 9000000001 sample_frame
    ⊆ apply_time_filter "Last Hour" 8000000000 sample_frame.
Proof.
  apply (time_filter_shrinks_with_time "Last Hour" 8000000000 9000000001
           sample_frame).
  lia.
Defined.

(** *** Aggregation *)

Lemma label_is_true (name : string) (row : QueryLog) :
  label_is name row = true <-> model_label row = Some name.
Proof.
  unfold label_is. destruct (model_label row) as [l|].
  - rewrite String.eqb_eq. split; congruence.
  - split; discriminate.
Qed.

(** X17.  The two label counts add up to the number of queries exactly
    when every record is labelled POSITIVE or NEGATIVE; a record with
    another label, or with none, is in the total and in neither count. *)
Theorem label_counts_cover_iff (df : DataFrame) :
  (positive_count df + negative_count df)%nat = total_queries df
  <-> Forall (fun row => model_label row = Some "POSITIVE"%string
                         \/ model_label row = Some "NEGATIVE"%string) df.
Proof.
  unfold positive_count, negative_count, total_queries.
  induction df as [|row df IH]; [split; [constructor | reflexivity]|].
  pose proof (DashboardProps.label_counts_bounded df) as Hbound.
  rewrite Forall_cons, <- IH, <- !label_is_true. cbn [List.filter].
  destruct (label_is "POSITIVE" row) eqn:Hp;
    destruct (label_is "NEGATIVE" row) eqn:Hn; cbn [length].
  - discriminate (DashboardProps.label_is_unique _ _ _ Hp Hn).
  - split; [intros H; split; [left; reflexivity | lia] | intros [_ H]; lia].
  - split; [intros H; split; [right; reflexivity | lia] | intros [_ H]; lia].
  - split; [lia | intros [[H | H] _]; discriminate H].
Qed.

Lemma sublist_filter_length (f : QueryLog -> bool) (l1 l2 : DataFrame) :
  sublist l1 l2 ->
  (length (List.filter f l1) <= length (List.filter f l2))%nat.
Proof.
  induction 1 as [|x l1 l2 _ IH|x l1 l2 _ IH]; [reflexivity| |];
    cbn [List.filter]; destruct (f x); cbn [length]; lia.
Qed.

(** X18.  Narrowing the range never raises a count: the total, the
    positive count and the negative count of the last hour are at most
    those of the last 24 hours, which are at most those of the last 7
    days, which are at most those of the whole frame. *)
Theorem counts_narrow_with_range (df : DataFrame) (now : Z) :
  let hour := apply_time_filter "Last Hour" now df in
  let day := apply_time_filter "Last 24 Hours" now df in
  let week := apply_time_filter "Last 7 Days" now df in
  (total_queries hour <= total_queries day <= total_queries week
   /\ total_queries week <= total_queries df)%nat
  /\ (positive_count hour <= positive_count day <= positive_count week
      /\ positive_count week <= positive_count df)%nat
  /\ (negative_count hour <= negative_count day <= negative_count week
      /\ negative_count week <= negative_count df)%nat.
Proof.
  intros hour day week.
  assert (Hhd : sublist hour day).
  { apply DashboardProps.filter_after_sublist.
    unfold timedelta_hours. lia. }
  assert (Hdw : sublist day week).
  { apply DashboardProps.filter_after_sublist.
    unfold timedelta_hours, timedelta_days. lia. }
  assert (Hwa : sublist week df) by apply DashboardProps.filter_sublist_frame.
  unfold total_queries, positive_count, negative_count.
  repeat split;
    first [ apply sublist_length; assumption
          | apply sublist_filter_length; assumption ].
Qed.

(** X22.  The guard of line 99 and the label counts: for an empty
    selection [avg_score] is the number 0, not [nan]; and whatever the
    selection, the positive and the negative count together do not exceed
    the number of queries. *)
Theorem aggregation_guard_and_counts (df : DataFrame) :
  (total_queries df = 0%nat -> avg_score df = Num 0)
  /\ (positive_count df + negative_count df <= total_queries df)%nat.
Proof.
  split.
  - unfold avg_score. intros ->. reflexivity.
  - apply DashboardProps.label_counts_bounded.
Qed.

Lemma aggregation_guard_and_counts_witness :
  avg_score [] = Num 0
  /\ (positive_count sample_frame + negative_count sample_frame
      <= total_queries sample_frame)%nat.
Proof.
  split.
  - apply (aggregation_guard_and_counts []). reflexivity.
  - apply (aggregation_guard_and_counts sample_frame).
Defined.

(** X20.  The counts do not depend on the order of the rows: two frames
    with the same rows in any order have the same total and the same
    label counts. *)
Theorem counts_ignore_row_order (df1 df2 : DataFrame) :
  df1 ≡ₚ df2 ->
  total_queries df1 = total_queries df2
  /\ positive_count df1 = positive_count df2
  /\ negative_count df1 = negative_count df2.
Proof.
  intros Hperm.
  assert (Hcount : forall f : QueryLog -> bool,
            length (List.filter f df1) = length (List.filter f df2)).
  { intros f. clear -Hperm.
    induction Hperm as [|x l1 l2 _ IH|x y l|l1 l2 l3 _ IH1 _ IH2];
      cbn [List.filter].
    - reflexivity.
    - destruct (f x); cbn [length]; congruence.
    - destruct (f x), (f y); reflexivity.
    - congruence. }
  unfold total_queries, positive_count, negative_count.
  rewrite (Permutation_length Hperm).
  repeat split; apply Hcount.
Qed.

Lemma counts_ignore_row_order_witness :
  total_queries sample_frame = total_queries (table sample_store)
  /\ positive_count sample_frame = positive_count (table sample_store)
  /\ negative_count sample_frame = negative_count (table sample_store).
Proof.
  apply (counts_ignore_row_order sample_frame (table sample_store)).
  symmetry.
  exact (Permutation_cons_append
           [sample_row 3 9000000000 "POSITIVE" (3 # 4);
            sample_row 2 5000000000 "NEUTRAL" (1 # 2)]
           (sample_row 1 1000000000 "NEGATIVE" (1 # 4))).
Defined.

(** *** The whole script *)



End DashboardExtra.
